(** * ProsperAPI: the public CREST endpoints ([publicAPI/crest_endpoint.py])

    A shallow embedding of the two Flask-RESTful handlers
    ([OHLC_endpoint.get], [ProphetEndpoint.get]), of the format enumeration
    ([AcceptedDataFormat], [return_supported_types]) and of the statistics
    hook ([collect_stats]).

    Python values are dynamically typed, so they are embedded in one type
    [PyObj].  A handler is a computation in a small monad [Py] that records
    every collaborator call and every log record in a trace and that
    completes normally, by [return], or by an exception.  The collaborators
    that live outside this file ([crest_utils], [forecast_utils], the
    configuration) are fields of an environment record: every theorem
    quantifies over all their behaviours. *)

From Stdlib Require Import ZArith List String Ascii Bool Lia.
Import ListNotations.
Local Open Scope string_scope.
Local Open Scope list_scope.
Local Open Scope Z_scope.

(** ** Python values, exceptions and outcomes *)

(** [PyRef name] is an object known only by its identity: a module, a
    logger, a data frame handed back by a collaborator. *)
Inductive PyObj : Type :=
| PyNone
| PyBool (b : bool)
| PyInt (z : Z)
| PyStr (s : string)
| PyTuple (item0 item1 : PyObj)
| PyRef (name : string).

(** Instances of [Exception].  [ValidatorException] stands for
    [exceptions.ValidatorException] and its subclasses, the instances on
    which [isinstance(err, exceptions.ValidatorException)] is true; it
    carries the attributes [err.message] and [err.status].  The other
    constructors are the instances on which that test is false. *)
Inductive PyExn : Type :=
| ValidatorException (message : string) (status : Z)
| NameError (name : string)
| TypeError (msg : string)
| OtherException (cls msg : string).

Inductive Outcome : Type :=
| Returns (v : PyObj)
| Raises (e : PyExn).

Definition Namespace := list (string * PyObj).
Definition Kwargs := list (string * PyObj).

(** [dict.get(key)]: the value, or [None] when the key is absent. *)
Fixpoint ns_lookup (ns : Namespace) (key : string) : option PyObj :=
  match ns with
  | [] => None
  | (k, v) :: rest => if String.eqb k key then Some v else ns_lookup rest key
  end.

Definition args_get (args : Namespace) (key : string) : PyObj :=
  match ns_lookup args key with
  | Some v => v
  | None => PyNone
  end.

(** ** The trace: collaborator calls and log records *)

Inductive Callee : Type :=
| c_validate_id
| c_fetch_market_history
| c_OHLC_to_format
| c_fetch_extended_history
| c_build_forecast
| c_data_to_format.

Inductive LogLevel : Type := INFO | DEBUG | WARNING.

(** What is handed to the logger: a literal, a [str.format] template with
    its fields, or an object (the parsed arguments). *)
Inductive LogMsg : Type :=
| Text (s : string)
| Format (template : string) (fields : list PyObj)
| Dump (ns : Namespace).

Inductive Event : Type :=
| Log (level : LogLevel) (msg : LogMsg) (exc_info : option PyExn)
| Call (callee : Callee) (args : list PyObj) (kwargs : Kwargs) (outcome : Outcome).

(** ** The monad of Python statements *)

Inductive Completion (A : Type) : Type :=
| Normal (a : A)
| Return (v : PyObj)
| Raise (e : PyExn).
Arguments Normal {A} a.
Arguments Return {A} v.
Arguments Raise {A} e.

Definition Py (A : Type) : Type := (list Event * Completion A)%type.

Definition ret {A : Type} (a : A) : Py A := ([], Normal a).

Definition bind {A B : Type} (m : Py A) (k : A -> Py B) : Py B :=
  match m with
  | (t, Normal a) => let (t', c) := k a in (t ++ t', c)
  | (t, Return v) => (t, Return v)
  | (t, Raise e) => (t, Raise e)
  end.

Declare Scope py_scope.
Delimit Scope py_scope with py.
Notation "x <- m ;; k" := (bind m (fun x => k))
  (at level 61, m at next level, right associativity) : py_scope.
Notation "m ;; k" := (bind m (fun _ => k))
  (at level 61, right associativity) : py_scope.
Local Open Scope py_scope.

Definition pass : Py unit := ret tt.
Definition return_ {A : Type} (v : PyObj) : Py A := ([], Return v).
Definition raise {A : Type} (e : PyExn) : Py A := ([], Raise e).
Definition emit (ev : Event) : Py unit := ([ev], Normal tt).

(** [try: body  except Exception as err: handler err]. *)
Definition try_except {A : Type} (body : Py A) (handler : PyExn -> Py A) : Py A :=
  match body with
  | (t, Raise err) => let (t', c) := handler err in (t ++ t', c)
  | done => done
  end.

(** A call of a collaborator: the call and its outcome are recorded, and an
    exception of the callee is raised at the call site. *)
Definition call (f : Callee) (args : list PyObj) (kw : Kwargs) (o : Outcome) : Py PyObj :=
  ([Call f args kw o],
   match o with
   | Returns v => Normal v
   | Raises e => Raise e
   end).

(** The boundary of a function: falling off the end returns [None]. *)
Definition def_ (body : Py unit) : list Event * Outcome :=
  match body with
  | (t, Normal _) => (t, Returns PyNone)
  | (t, Return v) => (t, Returns v)
  | (t, Raise e) => (t, Raises e)
  end.

Definition trace {A : Type} (r : list Event * A) : list Event := fst r.
Definition result {A : Type} (r : list Event * A) : A := snd r.

(** ** Name resolution *)

(** The names of the [builtins] module (Python 3). *)
Definition builtins : list string :=
  ["abs"; "all"; "any"; "ascii"; "bin"; "bool"; "bytearray"; "bytes";
   "callable"; "chr"; "classmethod"; "compile"; "complex"; "delattr";
   "dict"; "dir"; "divmod"; "enumerate"; "eval"; "exec"; "filter"; "float";
   "format"; "frozenset"; "getattr"; "globals"; "hasattr"; "hash"; "help";
   "hex"; "id"; "input"; "int"; "isinstance"; "issubclass"; "iter"; "len";
   "list"; "locals"; "map"; "max"; "memoryview"; "min"; "next"; "object";
   "oct"; "open"; "ord"; "pow"; "print"; "property"; "range"; "repr";
   "reversed"; "round"; "set"; "setattr"; "slice"; "sorted";
   "staticmethod"; "str"; "sum"; "super"; "tuple"; "type"; "vars"; "zip";
   "None"; "True"; "False"; "Ellipsis"; "NotImplemented";
   "BaseException"; "Exception"; "ArithmeticError"; "AssertionError";
   "AttributeError"; "EOFError"; "ImportError"; "IndexError"; "KeyError";
   "KeyboardInterrupt"; "LookupError"; "MemoryError"; "NameError";
   "NotImplementedError"; "OSError"; "OverflowError"; "RuntimeError";
   "StopIteration"; "SyntaxError"; "SystemExit"; "TypeError";
   "UnboundLocalError"; "ValueError"; "ZeroDivisionError"].

(** A name that is not local: the module's globals, then the builtins,
    else [NameError]. *)
Definition load_global (globals : Namespace) (name : string) : Py PyObj :=
  match ns_lookup globals name with
  | Some v => ret v
  | None =>
      if existsb (String.eqb name) builtins
      then ret (PyRef ("builtins." ++ name))
      else raise (NameError name)
  end.

(** Binding the keyword arguments of a call to the parameters of the
    callee: a keyword that names no parameter is a [TypeError]. *)
Definition bind_keywords (fname : string) (params : list string) (kw : Kwargs) : Py unit :=
  match find (fun kv => negb (existsb (String.eqb (fst kv)) params)) kw with
  | Some (k, _) =>
      raise (TypeError (fname ++ "() got an unexpected keyword argument '" ++ k ++ "'"))
  | None => ret tt
  end.

(** ** Strings *)

(** [str.lower] on a string of ASCII characters: the capitals A to Z are
    lowered, every other character is kept. *)
Definition ascii_lower (c : ascii) : ascii :=
  let n := nat_of_ascii c in
  if (Nat.leb 65 n && Nat.leb n 90)%bool then ascii_of_nat (n + 32) else c.

Fixpoint lower (s : string) : string :=
  match s with
  | EmptyString => EmptyString
  | String c rest => String (ascii_lower c) (lower rest)
  end.

(** [ch in s] for a one-character [ch]. *)
Fixpoint contains (ch : ascii) (s : string) : bool :=
  match s with
  | EmptyString => false
  | String c rest => (Ascii.eqb c ch || contains ch rest)%bool
  end.

(** ** [AcceptedDataFormat] and [return_supported_types] *)

Inductive AcceptedDataFormat : Type := CSV | JSON.

Definition member_name (m : AcceptedDataFormat) : string :=
  match m with
  | CSV => "CSV"
  | JSON => "JSON"
  end.

Definition member_value (m : AcceptedDataFormat) : Z :=
  match m with
  | CSV => 0
  | JSON => 1
  end.

Definition members : list AcceptedDataFormat := [CSV; JSON].

(** [AcceptedDataFormat.__dict__.keys()] as CPython (3.6 and later, before
    3.11) lays the class dictionary out: the bookkeeping of the [Enum]
    machinery, with the members set on the class in definition order. *)
Definition AcceptedDataFormat_dict_keys : list string :=
  ["_generate_next_value_"; "__module__"; "__doc__"; "_member_names_";
   "_member_map_"; "_member_type_"; "_value2member_map_"]
  ++ map member_name members ++ ["__new__"].

(** The function takes the keys of the class dictionary, which the
    interpreter and not this file decides. *)
Definition return_supported_types (dict_keys : list string) : list string :=
  fold_left
    (fun supported_types key =>
       if negb (contains "_"%char key)
       then supported_types ++ [lower key]
       else supported_types)
    dict_keys [].

(** ** The imported collaborators *)

(** [publicAPI.crest_utils]: each function is given by its outcome on the
    arguments it is called with.  Inside one request no function is called
    twice on the same arguments, so this covers collaborators with state. *)
Record crest_utils_module : Type := {
  validate_id : string -> PyObj -> Kwargs -> Outcome;
  fetch_market_history : PyObj -> PyObj -> Kwargs -> Outcome;
  OHLC_to_format : PyObj -> PyObj -> Outcome
}.

(** [publicAPI.forecast_utils]. *)
Record forecast_utils_module : Type := {
  fetch_extended_history : PyObj -> PyObj -> Outcome;
  build_forecast : PyObj -> PyObj -> Outcome;
  data_to_format : PyObj -> PyObj -> Outcome
}.

(** What the module imports and reads: the two utility modules and
    [CONFIG.get(section, key)]. *)
Record Env : Type := {
  crest_utils : crest_utils_module;
  forecast_utils : forecast_utils_module;
  CONFIG_get : string -> string -> PyObj
}.

(** ** The module's global names *)

(** The module namespace when [def collect_stats] is executed: the
    attributes the import system sets and the names bound by the top-level
    statements above the [def]. *)
Definition globals_before_collect_stats : Namespace :=
  [("__name__", PyStr "publicAPI.crest_endpoint");
   ("__file__", PyRef "__file__");
   ("__package__", PyStr "publicAPI");
   ("__doc__", PyStr "crest_endpoint.py: collection of public crest endpoints for Prosper");
   ("sys", PyRef "sys");
   ("path", PyRef "os.path");
   ("datetime", PyRef "datetime.datetime");
   ("Enum", PyRef "enum.Enum");
   ("json", PyRef "ujson");
   ("Flask", PyRef "flask.Flask");
   ("Response", PyRef "flask.Response");
   ("jsonify", PyRef "flask.jsonify");
   ("reqparse", PyRef "flask_restful.reqparse");
   ("Api", PyRef "flask_restful.Api");
   ("Resource", PyRef "flask_restful.Resource");
   ("request", PyRef "flask_restful.request");
   ("forecast_utils", PyRef "publicAPI.forecast_utils");
   ("crest_utils", PyRef "publicAPI.crest_utils");
   ("exceptions", PyRef "publicAPI.exceptions");
   ("api_config", PyRef "publicAPI.config");
   ("p_logging", PyRef "prosper.common.prosper_logging");
   ("p_config", PyRef "prosper.common.prosper_config");
   ("HERE", PyRef "HERE");
   ("CONFIG_FILEPATH", PyRef "CONFIG_FILEPATH");
   ("CONFIG", PyRef "CONFIG");
   ("LOGGER", PyRef "prosper.common.prosper_logging.DEFAULT_LOGGER");
   ("DEBUG", PyBool false);
   ("TEST", PyRef "publicAPI.forecast_utils.LOGGER");
   ("API", PyRef "API");
   ("AcceptedDataFormat", PyRef "AcceptedDataFormat");
   ("return_supported_types", PyRef "return_supported_types")].

Definition DEFAULT_RANGE (env : Env) : PyObj := CONFIG_get env "CREST" "prophet_range".
Definition MAX_RANGE (env : Env) : PyObj := CONFIG_get env "CREST" "prophet_max".

(** Every name the module binds at its top level. *)
Definition module_globals (env : Env) : Namespace :=
  globals_before_collect_stats ++
  [("collect_stats", PyRef "collect_stats");
   ("output_csv", PyRef "output_csv");
   ("OHLC_endpoint", PyRef "OHLC_endpoint");
   ("DEFAULT_RANGE", DEFAULT_RANGE env);
   ("MAX_RANGE", MAX_RANGE env);
   ("ProphetEndpoint", PyRef "ProphetEndpoint");
   ("CrestEndpointException", PyRef "CrestEndpointException");
   ("BadStatus", PyRef "BadStatus")].

(** ** [collect_stats] *)

(** The expressions that occur as default values. *)
Inductive Expr : Type :=
| ENone
| EStr (s : string)
| EName (id : string).

Definition eval (globals : Namespace) (e : Expr) : Py PyObj :=
  match e with
  | ENone => ret PyNone
  | EStr s => ret (PyStr s)
  | EName id => load_global globals id
  end.

(** A [def] statement evaluates the default values, left to right, when it
    is executed; the function object keeps the values. *)
Fixpoint eval_defaults (globals : Namespace) (ds : list (string * Expr)) : Py Namespace :=
  match ds with
  | [] => ret []
  | (p, e) :: rest =>
      v <- eval globals e ;;
      vs <- eval_defaults globals rest ;;
      ret ((p, v) :: vs)
  end.

Definition collect_stats_defaults : list (string * Expr) :=
  [("additional_data", ENone);
   ("db_name", EStr "CREST_stats.json");
   ("logger", EName "DEFAULT_LOGGER")].

Definition collect_stats_body
    (endpoint_name args_payload additional_data db_name logger : PyObj) : Py unit :=
  pass.

(** The [def collect_stats] statement, executed in the module namespace
    [globals], followed by a call that passes the two positional arguments
    and leaves the others at their defaults. *)
Definition collect_stats_in (globals : Namespace)
    (endpoint_name args_payload : PyObj) : list Event * Outcome :=
  def_ (defaults <- eval_defaults globals collect_stats_defaults ;;
        collect_stats_body endpoint_name args_payload
          (args_get defaults "additional_data")
          (args_get defaults "db_name")
          (args_get defaults "logger")).

(** In the module, the statement runs after the bindings above it. *)
Definition collect_stats : PyObj -> PyObj -> list Event * Outcome :=
  collect_stats_in globals_before_collect_stats.

(** ** The handlers *)

Section Handlers.
Variable env : Env.

Definition call_validate_id (table : string) (id : PyObj) (kw : Kwargs) : Py PyObj :=
  call c_validate_id [PyStr table; id] kw (validate_id (crest_utils env) table id kw).

Definition call_fetch_market_history (regionID typeID : PyObj) (kw : Kwargs) : Py PyObj :=
  call c_fetch_market_history [regionID; typeID] kw
    (fetch_market_history (crest_utils env) regionID typeID kw).

Definition call_OHLC_to_format (data return_type : PyObj) : Py PyObj :=
  call c_OHLC_to_format [data; return_type] []
    (OHLC_to_format (crest_utils env) data return_type).

Definition call_fetch_extended_history (regionID typeID : PyObj) : Py PyObj :=
  call c_fetch_extended_history [regionID; typeID] []
    (fetch_extended_history (forecast_utils env) regionID typeID).

Definition call_build_forecast (data forecast_range : PyObj) : Py PyObj :=
  call c_build_forecast [data; forecast_range] []
    (build_forecast (forecast_utils env) data forecast_range).

Definition call_data_to_format (data return_type : PyObj) : Py PyObj :=
  call c_data_to_format [data; return_type] []
    (data_to_format (forecast_utils env) data return_type).

(** [config=api_config.CONFIG, logger=LOGGER]. *)
Definition config_logger : Kwargs :=
  [("config", PyRef "publicAPI.config.CONFIG");
   ("logger", PyRef "prosper.common.prosper_logging.DEFAULT_LOGGER")].

(** [OHLC_endpoint.get(self, return_type)], from the parsed arguments
    [args = self.reqparse.parse_args()] on. *)
Definition OHLC_endpoint_get_body (return_type : string) (args : Namespace) : Py unit :=
  emit (Log INFO
          (Format "OHLC?regionID={0}&typeID={1}"
             [args_get args "regionID"; args_get args "typeID"]) None) ;;
  emit (Log DEBUG (Dump args) None) ;;
  try_except
    (call_validate_id "map_regions" (args_get args "regionID") config_logger ;;
     call_validate_id "inventory_types" (args_get args "typeID") config_logger)
    (fun err =>
       emit (Log WARNING (Text "ERROR: unable to validate type/region ids") (Some err)) ;;
       match err with
       | ValidatorException message status =>
           return_ (PyTuple (PyStr message) (PyInt status))
       | _ => return_ (PyTuple (PyStr "UNHANDLED EXCEPTION") (PyInt 500))
       end) ;;
  data <- try_except
    (call_fetch_market_history
       (args_get args "regionID") (args_get args "typeID") config_logger)
    (fun err =>
       emit (Log WARNING (Text "ERROR: unable to parse CREST data") (Some err)) ;;
       match err with
       | ValidatorException message status =>
           return_ (PyTuple (PyStr message) (PyInt status))
       | _ => return_ (PyTuple (PyStr "UNHANDLED EXCEPTION") (PyInt 500))
       end) ;;
  message <- call_OHLC_to_format data (PyStr return_type) ;;
  return_ message.

Definition OHLC_endpoint_get (return_type : string) (args : Namespace) : list Event * Outcome :=
  def_ (OHLC_endpoint_get_body return_type args).

(** [ProphetEndpoint.get(self)].  [DEFAULT_RANGE] and [return_type] are
    neither parameters nor assigned in the body: both are looked up in
    the module's globals when the statement that names them runs. *)
Definition ProphetEndpoint_get_body (args : Namespace) : Py unit :=
  emit (Log INFO
          (Format "prophet?regionID={0}&typeID={1}&range={2}"
             [args_get args "regionID"; args_get args "typeID"; args_get args "range"])
          None) ;;
  emit (Log DEBUG (Dump args) None) ;;
  try_except
    (call_validate_id "map_regions" (args_get args "regionID") config_logger ;;
     call_validate_id "inventory_types" (args_get args "typeID") config_logger)
    (fun err =>
       emit (Log WARNING (Text "ERROR: unable to validate type/region ids") (Some err)) ;;
       match err with
       | ValidatorException message status =>
           return_ (PyTuple (PyStr message) (PyInt status))
       | _ => return_ (PyTuple (PyStr "UNHANDLED EXCEPTION") (PyInt 500))
       end) ;;
  forecast_range <- load_global (module_globals env) "DEFAULT_RANGE" ;;
  data <- try_except
    (call_fetch_extended_history (args_get args "regionID") (args_get args "typeID"))
    (fun err =>
       emit (Log WARNING (Text "Unable to fetch data from archive") (Some err)) ;;
       call_fetch_market_history (args_get args "regionID") (args_get args "typeID") []) ;;
  data <- call_build_forecast data forecast_range ;;
  return_type <- load_global (module_globals env) "return_type" ;;
  message <- call_data_to_format data return_type ;;
  return_ message.

Definition ProphetEndpoint_get (args : Namespace) : list Event * Outcome :=
  def_ (ProphetEndpoint_get_body args).

(** [API.add_resource(..., path + '.<return_type>')]: the router calls
    the handler's [get] with the URL variable as a keyword argument. *)
Definition view_args (return_type : string) : Kwargs :=
  [("return_type", PyStr return_type)].

Definition route_OHLC (return_type : string) (args : Namespace) : list Event * Outcome :=
  def_ (bind_keywords "get" ["self"; "return_type"] (view_args return_type) ;;
        OHLC_endpoint_get_body return_type args).

Definition route_prophet (return_type : string) (args : Namespace) : list Event * Outcome :=
  def_ (bind_keywords "get" ["self"] (view_args return_type) ;;
        ProphetEndpoint_get_body args).
End Handlers.

(** ** Observations on traces and responses *)

Definition Callee_eqb (f g : Callee) : bool :=
  match f, g with
  | c_validate_id, c_validate_id
  | c_fetch_market_history, c_fetch_market_history
  | c_OHLC_to_format, c_OHLC_to_format
  | c_fetch_extended_history, c_fetch_extended_history
  | c_build_forecast, c_build_forecast
  | c_data_to_format, c_data_to_format => true
  | _, _ => false
  end.

Definition is_call (ev : Event) : bool :=
  match ev with
  | Call _ _ _ _ => true
  | Log _ _ _ => false
  end.

Definition is_call_to (f : Callee) (ev : Event) : bool :=
  match ev with
  | Call g _ _ _ => Callee_eqb f g
  | Log _ _ _ => false
  end.

(** The calls of a trace, in order, without the log records. *)
Definition calls (t : list Event) : list Event := filter is_call t.
Definition calls_to (f : Callee) (t : list Event) : list Event := filter (is_call_to f) t.

(** A call of one of the two data sources. *)
Definition is_fetch (ev : Event) : bool :=
  (is_call_to c_fetch_market_history ev || is_call_to c_fetch_extended_history ev)%bool.

(** A call of [validate_id] that raised. *)
Definition is_failed_validation (ev : Event) : bool :=
  match ev with
  | Call c_validate_id _ _ (Raises _) => true
  | _ => false
  end.

Definition is_4xx (status : Z) : bool := ((400 <=? status) && (status <? 500))%bool.

(** The value [(body, status)] that Flask-RESTful sends as an error. *)
Definition error_response (body : string) (status : Z) : PyObj :=
  PyTuple (PyStr body) (PyInt status).

(** ** Sample collaborators and requests *)

Definition sample_validate_id (table : string) (id : PyObj) (kw : Kwargs) : Outcome :=
  match id with
  | PyInt z =>
      if ((String.eqb table "map_regions" && (z =? 10000002))
          || (String.eqb table "inventory_types" && (z =? 34)))%bool
      then Returns PyNone
      else Raises (ValidatorException ("ID not found in " ++ table) 404)
  | _ => Raises (OtherException "TypeError" "id is not an int")
  end.

Definition source (up : bool) (name : string) : Outcome :=
  if up then Returns (PyRef name)
  else Raises (OtherException "ConnectionError" (name ++ " unreachable")).

Definition sample_CONFIG_get (section key : string) : PyObj :=
  if String.eqb key "prophet_range" then PyStr "60"
  else if String.eqb key "prophet_max" then PyStr "180"
  else PyStr "".

(** A forecast is shown as the pair of the series and the horizon it was
    built from, a formatted payload as the pair of the data and the format. *)
Definition sample_env (archive_up market_up forecast_ok : bool) : Env :=
  {| crest_utils :=
       {| validate_id := sample_validate_id;
          fetch_market_history := fun _ _ _ => source market_up "market_history";
          OHLC_to_format := fun data return_type => Returns (PyTuple data return_type) |};
     forecast_utils :=
       {| fetch_extended_history := fun _ _ => source archive_up "extended_history";
          build_forecast := fun data forecast_range =>
            if forecast_ok then Returns (PyTuple data forecast_range)
            else Raises (OtherException "ForecastError" "series too short");
          data_to_format := fun data return_type => Returns (PyTuple data return_type) |};
     CONFIG_get := sample_CONFIG_get |}.

Definition sample_request (regionID : Z) (range : PyObj) : Namespace :=
  [("regionID", PyInt regionID);
   ("typeID", PyInt 34);
   ("User-Agent", PyStr "unit-test");
   ("api", PyStr "abc");
   ("range", range)].

(** Before a fetch at any position of the trace, [validate_id] has returned
    for [table] and [id]. *)
Definition validated (table : string) (id : PyObj) (pre : list Event) : Prop :=
  exists kw v, In (Call c_validate_id [PyStr table; id] kw (Returns v)) pre.

Definition fetch_guarded_by_validation (args : Namespace) (t : list Event) : Prop :=
  forall pre ev post,
    t = pre ++ ev :: post ->
    is_fetch ev = true ->
    validated "map_regions" (args_get args "regionID") pre /\
    validated "inventory_types" (args_get args "typeID") pre /\
    forallb (fun e => negb (is_failed_validation e)) pre = true.

(** A run in which a [validate_id] call raised fetched nothing and returned
    an error tuple. *)
Definition failed_validation_returns (r : list Event * Outcome) : Prop :=
  forall ev,
    In ev (trace r) ->
    is_failed_validation ev = true ->
    filter is_fetch (trace r) = [] /\
    exists body status, result r = Returns (error_response body status).

(** ** [output_csv] *)

(** What [output_csv] asks of the Flask application and of the response it
    gets back: [APP.make_response(data)] and
    [resp.headers['Content-Type'] = value], which hands the response on. *)
Record flask_app : Type := {
  make_response : PyObj -> PyObj -> Py PyObj;
  set_content_type : PyObj -> string -> Py PyObj
}.

(** [output_csv(data, status, headers=None)].  [APP] is no parameter and is
    not assigned in the body: it is looked up in the module's globals. *)
Definition output_csv (env : Env) (flask : flask_app)
    (data status headers : PyObj) : list Event * Outcome :=
  def_ (APP <- load_global (module_globals env) "APP" ;;
        resp <- make_response flask APP data ;;
        resp <- set_content_type flask resp "text/csv" ;;
        return_ resp).

(** ** Further observations *)

Definition is_warning (ev : Event) : bool :=
  match ev with
  | Log WARNING _ _ => true
  | _ => false
  end.

(** The WARNING records of a trace. *)
Definition warnings (t : list Event) : list Event := filter is_warning t.

(** The trace without the calls of [OHLC_to_format]. *)
Definition before_format (t : list Event) : list Event :=
  filter (fun ev => negb (is_call_to c_OHLC_to_format ev)) t.

(** An ASCII capital letter. *)
Definition is_ascii_upper (c : ascii) : bool :=
  (Nat.leb 65 (nat_of_ascii c) && Nat.leb (nat_of_ascii c) 90)%bool.

Fixpoint has_upper (s : string) : bool :=
  match s with
  | EmptyString => false
  | String c rest => (is_ascii_upper c || has_upper rest)%bool
  end.

(** The translation both handlers apply to an exception they catch around
    [validate_id] (and the OHLC handler around its fetch). *)
Definition translated (err : PyExn) : PyObj :=
  match err with
  | ValidatorException message status => PyTuple (PyStr message) (PyInt status)
  | _ => PyTuple (PyStr "UNHANDLED EXCEPTION") (PyInt 500)
  end.

(** A formatter that knows the two formats and raises on any other. *)
Definition strict_OHLC_to_format (data return_type : PyObj) : Outcome :=
  match return_type with
  | PyStr f =>
      if existsb (String.eqb f) ["csv"; "json"]
      then Returns (PyTuple data return_type)
      else Raises (OtherException "UnsupportedFormat" f)
  | _ => Raises (OtherException "UnsupportedFormat" "")
  end.

Definition strict_format_env : Env :=
  {| crest_utils :=
       {| validate_id := sample_validate_id;
          fetch_market_history := fun _ _ _ => source true "market_history";
          OHLC_to_format := strict_OHLC_to_format |};
     forecast_utils := forecast_utils (sample_env true true true);
     CONFIG_get := sample_CONFIG_get |}.

(** A Flask application whose calls succeed. *)
Definition sample_flask : flask_app :=
  {| make_response := fun app data => ret (PyTuple app data);
     set_content_type := fun resp value => ret (PyTuple resp (PyStr value)) |}.

(** A string of ASCII characters only: on these [lower] is [str.lower]. *)
Fixpoint is_ascii (s : string) : bool :=
  match s with
  | EmptyString => true
  | String c rest => (Nat.ltb (nat_of_ascii c) 128 && is_ascii rest)%bool
  end.

(** The parsed arguments of an OHLC request: its parser declares regionID,
    typeID, User-Agent and api, and no range. *)
Definition sample_OHLC_request (regionID : Z) : Namespace :=
  [("regionID", PyInt regionID);
   ("typeID", PyInt 34);
   ("User-Agent", PyStr "unit-test");
   ("api", PyNone)].

(** * Theorems *)

(** ** Proof automation *)

Ltac unfold_handlers :=
  unfold OHLC_endpoint_get, OHLC_endpoint_get_body,
    ProphetEndpoint_get, ProphetEndpoint_get_body,
    route_OHLC, route_prophet,
    call_validate_id, call_fetch_market_history, call_OHLC_to_format,
    call_fetch_extended_history, call_build_forecast, call_data_to_format in *.

(** Splits on the outcome of the next collaborator call the run depends on. *)
Ltac next_outcome :=
  match goal with
  | |- context [match ?o with Returns _ => _ | Raises _ => _ end] =>
      destruct o eqn:?; simpl in *
  | H : context [match ?o with Returns _ => _ | Raises _ => _ end] |- _ =>
      destruct o eqn:?; simpl in *
  | |- context [match ?e with ValidatorException _ _ => _ | _ => _ end] =>
      destruct e; simpl in *
  | H : context [match ?e with ValidatorException _ _ => _ | _ => _ end] |- _ =>
      destruct e; simpl in *
  end.

Ltac run_handler := unfold_handlers; simpl in *; repeat next_outcome.

(** Membership in a trace that is known event by event. *)
Ltac in_trace := simpl; repeat (first [left; reflexivity | right]).

(** Every position [pre ++ ev :: post] of an explicit trace. *)
Ltac each_position H tac :=
  lazymatch type of H with
  | [] = ?pre ++ _ :: _ => destruct pre; discriminate H
  | _ :: _ = ?pre ++ _ :: _ =>
      let e := fresh "e" in
      destruct pre as [|e pre];
      [ injection H as <- <-; tac
      | injection H as <- H; each_position H tac ]
  end.

(** ** The monad *)

Lemma bind_ret_l {A B : Type} (a : A) (k : A -> Py B) : bind (ret a) k = k a.
Proof. unfold bind, ret. destruct (k a). reflexivity. Qed.

Lemma bind_raise {A B : Type} (e : PyExn) (k : A -> Py B) :
  bind (raise e) k = raise e.
Proof. reflexivity. Qed.

Lemma bind_return {A B : Type} (v : PyObj) (k : A -> Py B) :
  bind (return_ v) k = return_ v.
Proof. reflexivity. Qed.

Lemma try_except_raise {A : Type} (e : PyExn) (h : PyExn -> Py A) :
  try_except (raise e) h = h e.
Proof. unfold try_except, raise. destruct (h e). reflexivity. Qed.

Lemma try_except_ret {A : Type} (a : A) (h : PyExn -> Py A) :
  try_except (ret a) h = ret a.
Proof. reflexivity. Qed.

(** ** [return_supported_types] *)

Lemma return_supported_types_filter (keys acc : list string) :
  fold_left
    (fun supported_types key =>
       if negb (contains "_"%char key)
       then supported_types ++ [lower key]
       else supported_types)
    keys acc
  = acc ++ map lower (filter (fun key => negb (contains "_"%char key)) keys).
Proof.
  revert acc. induction keys as [|key keys IH]; intros acc; simpl.
  - now rewrite app_nil_r.
  - rewrite IH. destruct (contains "_"%char key); simpl.
    + reflexivity.
    + now rewrite <- app_assoc.
Qed.

Lemma lower_on_members (k1 k2 : string) :
  In k1 (map member_name members) ->
  In k2 (map member_name members) ->
  lower k1 = lower k2 -> k1 = k2.
Proof.
  simpl. intros [<-|[<-|[]]] [<-|[<-|[]]]; intros H; try reflexivity; discriminate H.
Qed.

(** The run on CPython's class dictionary. *)
Lemma return_supported_types_cpython :
  return_supported_types AcceptedDataFormat_dict_keys = ["csv"; "json"].
Proof. reflexivity. Qed.

(** C8.  Whatever bookkeeping keys the class dictionary holds besides the
    members, as long as each of them contains an underscore,
    [return_supported_types()] returns the lowercased member names "csv" and
    "json", each once, and nothing else. *)
Theorem return_supported_types_exact (dict_keys : list string) :
  NoDup dict_keys ->
  (forall m, In (member_name m) dict_keys) ->
  (forall key, In key dict_keys ->
     In key (map member_name members) \/ contains "_"%char key = true) ->
  NoDup (return_supported_types dict_keys) /\
  (forall s, In s (return_supported_types dict_keys) <-> s = "csv" \/ s = "json") /\
  (forall s, In s (return_supported_types dict_keys) <->
             exists m, s = lower (member_name m)).
Proof.
  intros Hnd Hin Hother.
  unfold return_supported_types. rewrite return_supported_types_filter. simpl.
  set (kept := filter (fun key => negb (contains "_"%char key)) dict_keys).
  assert (Hkept : forall k, In k kept -> In k (map member_name members)).
  { intros k Hk. apply filter_In in Hk as [Hk Hu].
    destruct (Hother k Hk) as [Hm|Hc]; [exact Hm|].
    rewrite Hc in Hu. discriminate Hu. }
  assert (Hmem : forall m, In (member_name m) kept).
  { intros m. apply filter_In. split; [apply Hin|]. destruct m; reflexivity. }
  assert (Hset : forall s, In s (map lower kept) <-> s = "csv" \/ s = "json").
  { intros s. rewrite in_map_iff. split.
    - intros [k [<- Hk]]. apply Hkept in Hk. simpl in Hk.
      destruct Hk as [<-|[<-|[]]]; [left|right]; reflexivity.
    - intros [->| ->]; [exists "CSV"|exists "JSON"]; split; try reflexivity.
      + apply (Hmem CSV).
      + apply (Hmem JSON). }
  split; [|split].
  - assert (Hk : NoDup kept) by (apply NoDup_filter; exact Hnd).
    clearbody kept. clear Hmem Hset.
    induction Hk as [|k l Hnotin Hl IH]; simpl; constructor.
    + intros Hc. apply in_map_iff in Hc as [k' [Heq Hk']].
      apply Hnotin.
      rewrite <- (lower_on_members k' k); auto.
      * apply Hkept. now right.
      * apply Hkept. now left.
    + apply IH. intros k' Hk'. apply Hkept. now right.
  - exact Hset.
  - intros s. rewrite Hset. split.
    + intros [->| ->]; [exists CSV|exists JSON]; reflexivity.
    + intros [[|] ->]; [left|right]; reflexivity.
Qed.

Lemma return_supported_types_exact_witness :
  NoDup (return_supported_types AcceptedDataFormat_dict_keys) /\
  (forall s, In s (return_supported_types AcceptedDataFormat_dict_keys) <->
             s = "csv" \/ s = "json") /\
  (forall s, In s (return_supported_types AcceptedDataFormat_dict_keys) <->
             exists m, s = lower (member_name m)).
Proof.
  apply (return_supported_types_exact AcceptedDataFormat_dict_keys).
  - unfold AcceptedDataFormat_dict_keys. simpl.
    repeat (constructor; [simpl; intros H;
      repeat (destruct H as [H|H]; [discriminate H|]); exact H|]).
    constructor.
  - intros m. destruct m; simpl; repeat (first [left; reflexivity | right]).
  - intros key H. unfold AcceptedDataFormat_dict_keys in H. simpl in H.
    repeat (destruct H as [H|H];
      [subst key; first [right; reflexivity | left; simpl; tauto]|]).
    destruct H.
Defined.

(** ** The OHLC handler *)

(** The OHLC handler has no path to the archive. *)
Lemma OHLC_no_archive_call (env : Env) (return_type : string) (args : Namespace) :
  calls_to c_fetch_extended_history (trace (OHLC_endpoint_get env return_type args)) = [].
Proof. run_handler; reflexivity. Qed.

(** C5.  In the OHLC handler, an exception raised by a [validate_id] call or
    by the market fetch ends the request with a returned tuple: the
    exception's own message and status when it is a [ValidatorException]
    (so a 4xx status stays the 4xx status the exception carries), and the
    fixed body 'UNHANDLED EXCEPTION' with status 500 for every other
    exception, whatever that exception holds. *)
Theorem OHLC_errors_are_translated
    (env : Env) (return_type : string) (args : Namespace)
    (f : Callee) (a : list PyObj) (kw : Kwargs) (err : PyExn) :
  In (Call f a kw (Raises err)) (trace (OHLC_endpoint_get env return_type args)) ->
  f = c_validate_id \/ f = c_fetch_market_history ->
  (forall message status,
     err = ValidatorException message status ->
     result (OHLC_endpoint_get env return_type args)
       = Returns (PyTuple (PyStr message) (PyInt status)) /\
     (is_4xx status = true ->
      exists body code,
        result (OHLC_endpoint_get env return_type args)
          = Returns (error_response body code) /\ is_4xx code = true)) /\
  ((forall message status, err <> ValidatorException message status) ->
   result (OHLC_endpoint_get env return_type args)
     = Returns (PyTuple (PyStr "UNHANDLED EXCEPTION") (PyInt 500))).
Proof.
  intros Hin Hf.
  assert (Hres :
    result (OHLC_endpoint_get env return_type args) =
    Returns match err with
            | ValidatorException message status => PyTuple (PyStr message) (PyInt status)
            | _ => PyTuple (PyStr "UNHANDLED EXCEPTION") (PyInt 500)
            end).
  { run_handler;
      repeat (destruct Hin as [Hin|Hin];
              [try discriminate Hin; inversion Hin; subst; clear Hin|]);
      try contradiction;
      try reflexivity;
      destruct Hf; discriminate. }
  rewrite Hres. split.
  - intros message status ->. split; [reflexivity|].
    intros H4. exists message, status. split; [reflexivity|exact H4].
  - intros Hnot. destruct err; try reflexivity.
    exfalso. eapply Hnot. reflexivity.
Qed.

Lemma OHLC_errors_are_translated_witness :
  result (OHLC_endpoint_get (sample_env true true true) "json" (sample_request 1 PyNone))
    = Returns (PyTuple (PyStr "ID not found in map_regions") (PyInt 404)) /\
  result (OHLC_endpoint_get (sample_env true false true) "json" (sample_request 10000002 PyNone))
    = Returns (PyTuple (PyStr "UNHANDLED EXCEPTION") (PyInt 500)).
Proof.
  split.
  - refine (proj1 (proj1 (OHLC_errors_are_translated
             (sample_env true true true) "json" (sample_request 1 PyNone)
             c_validate_id [PyStr "map_regions"; PyInt 1] config_logger
             (ValidatorException "ID not found in map_regions" 404) _ _) _ _ _)).
    + in_trace.
    + left; reflexivity.
    + reflexivity.
  - refine (proj2 (OHLC_errors_are_translated
             (sample_env true false true) "json" (sample_request 10000002 PyNone)
             c_fetch_market_history [PyInt 10000002; PyInt 34] config_logger
             (OtherException "ConnectionError" "market_history unreachable") _ _) _).
    + in_trace.
    + right; reflexivity.
    + intros message status H. discriminate H.
Defined.

(** The OHLC handler does not depend on [forecast_utils] at all: replacing
    the archive by any other one leaves the run unchanged. *)
Lemma OHLC_ignores_forecast_utils
    (env : Env) (archive : forecast_utils_module)
    (return_type : string) (args : Namespace) :
  OHLC_endpoint_get
    {| crest_utils := crest_utils env;
       forecast_utils := archive;
       CONFIG_get := CONFIG_get env |} return_type args
  = OHLC_endpoint_get env return_type args.
Proof. unfold_handlers. reflexivity. Qed.

(** C3.  In every OHLC request in which [fetch_market_history] raises, the
    handler returns the error tuple of that exception (its own message and
    status for a [ValidatorException], 'UNHANDLED EXCEPTION' and 500 for
    any other), formats nothing and never calls [fetch_extended_history];
    this holds for every behaviour of the archive, one that would have
    succeeded included. *)
Theorem OHLC_never_falls_back
    (env : Env) (return_type : string) (args : Namespace)
    (a : list PyObj) (kw : Kwargs) (err : PyExn) :
  In (Call c_fetch_market_history a kw (Raises err))
     (trace (OHLC_endpoint_get env return_type args)) ->
  result (OHLC_endpoint_get env return_type args) = Returns (translated err) /\
  (forall message status,
     err = ValidatorException message status ->
     result (OHLC_endpoint_get env return_type args)
       = Returns (PyTuple (PyStr message) (PyInt status))) /\
  ((forall message status, err <> ValidatorException message status) ->
   result (OHLC_endpoint_get env return_type args)
     = Returns (PyTuple (PyStr "UNHANDLED EXCEPTION") (PyInt 500))) /\
  calls_to c_fetch_extended_history (trace (OHLC_endpoint_get env return_type args)) = [] /\
  calls_to c_OHLC_to_format (trace (OHLC_endpoint_get env return_type args)) = [] /\
  (forall archive,
     OHLC_endpoint_get
       {| crest_utils := crest_utils env;
          forecast_utils := archive;
          CONFIG_get := CONFIG_get env |} return_type args
     = OHLC_endpoint_get env return_type args).
Proof.
  intros Hin.
  assert (Hres : result (OHLC_endpoint_get env return_type args)
                 = Returns (translated err)).
  { run_handler;
      repeat (destruct Hin as [Hin|Hin];
              [try discriminate Hin; inversion Hin; subst; clear Hin|]);
      try contradiction; reflexivity. }
  split; [exact Hres|]. split; [|split; [|split; [|split]]].
  - intros message status ->. exact Hres.
  - intros Hnot. rewrite Hres. destruct err; try reflexivity.
    exfalso. eapply Hnot. reflexivity.
  - apply OHLC_no_archive_call.
  - run_handler;
      repeat (destruct Hin as [Hin|Hin]; [try discriminate Hin|]);
      try contradiction; reflexivity.
  - intros archive. apply OHLC_ignores_forecast_utils.
Qed.

Lemma OHLC_never_falls_back_witness :
  result (OHLC_endpoint_get (sample_env true false true) "json"
            (sample_request 10000002 PyNone))
    = Returns (PyTuple (PyStr "UNHANDLED EXCEPTION") (PyInt 500)) /\
  fetch_extended_history (forecast_utils (sample_env true false true))
    (PyInt 10000002) (PyInt 34) = Returns (PyRef "extended_history").
Proof.
  split.
  - refine (proj1 (OHLC_never_falls_back
             (sample_env true false true) "json" (sample_request 10000002 PyNone)
             [PyInt 10000002; PyInt 34] config_logger
             (OtherException "ConnectionError" "market_history unreachable") _)).
    in_trace.
  - reflexivity.
Defined.

(** ** Validation comes first, in both handlers *)

Lemma OHLC_fetch_guarded (env : Env) (return_type : string) (args : Namespace) :
  fetch_guarded_by_validation args (trace (OHLC_endpoint_get env return_type args)).
Proof.
  unfold fetch_guarded_by_validation, validated. intros pre ev post H Hfetch.
  run_handler;
    each_position H
      ltac:(first [ discriminate Hfetch
                  | repeat split; [do 2 eexists; in_trace ..] ]).
Qed.

Lemma Prophet_fetch_guarded (env : Env) (args : Namespace) :
  fetch_guarded_by_validation args (trace (ProphetEndpoint_get env args)).
Proof.
  unfold fetch_guarded_by_validation, validated. intros pre ev post H Hfetch.
  run_handler;
    each_position H
      ltac:(first [ discriminate Hfetch
                  | repeat split; [do 2 eexists; in_trace ..] ]).
Qed.

Lemma OHLC_failed_validation (env : Env) (return_type : string) (args : Namespace) :
  failed_validation_returns (OHLC_endpoint_get env return_type args).
Proof.
  unfold failed_validation_returns, error_response. intros ev Hin Hfail.
  run_handler;
    repeat (destruct Hin as [Hin|Hin]; [subst ev; try discriminate Hfail|]);
    try contradiction; split; eauto.
Qed.

Lemma Prophet_failed_validation (env : Env) (args : Namespace) :
  failed_validation_returns (ProphetEndpoint_get env args).
Proof.
  unfold failed_validation_returns, error_response. intros ev Hin Hfail.
  run_handler;
    repeat (destruct Hin as [Hin|Hin]; [subst ev; try discriminate Hfail|]);
    try contradiction; split; eauto.
Qed.

(** C4.  In both handlers, at every position of the trace where a data
    source is called ([fetch_market_history] or [fetch_extended_history]),
    both [validate_id] calls, of regionID against 'map_regions' and of
    typeID against 'inventory_types', have returned before and no
    [validate_id] call has raised; and a run in which a [validate_id] call
    raised calls no data source and returns an error tuple. *)
Theorem fetch_only_after_validation
    (env : Env) (return_type : string) (args : Namespace) :
  (fetch_guarded_by_validation args (trace (OHLC_endpoint_get env return_type args)) /\
   failed_validation_returns (OHLC_endpoint_get env return_type args)) /\
  (fetch_guarded_by_validation args (trace (ProphetEndpoint_get env args)) /\
   failed_validation_returns (ProphetEndpoint_get env args)).
Proof.
  split; split.
  - apply OHLC_fetch_guarded.
  - apply OHLC_failed_validation.
  - apply Prophet_fetch_guarded.
  - apply Prophet_failed_validation.
Qed.

Lemma fetch_only_after_validation_witness :
  validated "map_regions" (PyInt 10000002)
    (firstn 4 (trace (OHLC_endpoint_get (sample_env true true true) "json"
                        (sample_request 10000002 PyNone)))) /\
  validated "inventory_types" (PyInt 34)
    (firstn 4 (trace (OHLC_endpoint_get (sample_env true true true) "json"
                        (sample_request 10000002 PyNone)))).
Proof.
  pose proof (proj1 (proj1 (fetch_only_after_validation
                (sample_env true true true) "json" (sample_request 10000002 PyNone)))
                (firstn 4 (trace (OHLC_endpoint_get (sample_env true true true) "json"
                                    (sample_request 10000002 PyNone))))
                (Call c_fetch_market_history [PyInt 10000002; PyInt 34] config_logger
                   (Returns (PyRef "market_history")))
                (skipn 5 (trace (OHLC_endpoint_get (sample_env true true true) "json"
                                   (sample_request 10000002 PyNone))))
                eq_refl eq_refl) as [Hregion [Htype _]].
  split; [exact Hregion | exact Htype].
Defined.

(** ** The forecast handler *)

(** Two parsed requests that agree on every argument but [range] make the
    same calls and end the same way. *)
Lemma Prophet_same_run_without_range (env : Env) (args args' : Namespace) :
  (forall key, key <> "range" -> args_get args' key = args_get args key) ->
  calls (trace (ProphetEndpoint_get env args')) = calls (trace (ProphetEndpoint_get env args)) /\
  result (ProphetEndpoint_get env args') = result (ProphetEndpoint_get env args).
Proof.
  intros Hsame.
  assert (Hregion : args_get args' "regionID" = args_get args "regionID")
    by (apply Hsame; discriminate).
  assert (Htype : args_get args' "typeID" = args_get args "typeID")
    by (apply Hsame; discriminate).
  clear Hsame. unfold_handlers. rewrite !Hregion, !Htype. clear Hregion Htype.
  run_handler; split; reflexivity.
Qed.

(** Every call of [build_forecast] gets the configured default as horizon. *)
Lemma Prophet_horizon_is_default
    (env : Env) (args : Namespace) (a : list PyObj) (kw : Kwargs) (o : Outcome) :
  In (Call c_build_forecast a kw o) (trace (ProphetEndpoint_get env args)) ->
  exists data, a = [data; DEFAULT_RANGE env].
Proof.
  intros Hin.
  run_handler;
    repeat (destruct Hin as [Hin|Hin];
            [try discriminate Hin; inversion Hin; subst; clear Hin|]);
    try contradiction; eexists; reflexivity.
Qed.

(** The forecast handler returns a value only from the validation branch:
    every returned value is an error tuple of a run in which [validate_id]
    raised. *)
Lemma Prophet_returns_only_validation_errors
    (env : Env) (args : Namespace) (v : PyObj) :
  result (ProphetEndpoint_get env args) = Returns v ->
  (exists body status, v = error_response body status) /\
  exists ev, In ev (trace (ProphetEndpoint_get env args)) /\ is_failed_validation ev = true.
Proof.
  intros Hres. unfold error_response.
  run_handler; try discriminate Hres; injection Hres as <-;
    (split; [eauto|]);
    match goal with
    | |- context [Call c_validate_id ?a ?k (Raises ?e)] =>
        exists (Call c_validate_id a k (Raises e)); split; [in_trace | reflexivity]
    end.
Qed.

(** [data_to_format] is never reached. *)
Lemma Prophet_no_format_call (env : Env) (args : Namespace) :
  calls_to c_data_to_format (trace (ProphetEndpoint_get env args)) = [].
Proof. run_handler; reflexivity. Qed.

(** Once a forecast is built, looking [return_type] up ends the request. *)
Lemma Prophet_NameError_after_forecast
    (env : Env) (args : Namespace) (a : list PyObj) (kw : Kwargs) (forecast : PyObj) :
  In (Call c_build_forecast a kw (Returns forecast)) (trace (ProphetEndpoint_get env args)) ->
  result (ProphetEndpoint_get env args) = Raises (NameError "return_type").
Proof.
  intros Hin.
  run_handler;
    repeat (destruct Hin as [Hin|Hin]; [try discriminate Hin|]);
    try contradiction; reflexivity.
Qed.

(** What the OHLC handler does at the same place: it formats the series with
    its [return_type] parameter and returns the formatted message. *)
Lemma OHLC_formats_with_return_type
    (env : Env) (return_type : string) (args : Namespace)
    (a : list PyObj) (kw : Kwargs) (series : PyObj) :
  In (Call c_fetch_market_history a kw (Returns series))
     (trace (OHLC_endpoint_get env return_type args)) ->
  calls_to c_OHLC_to_format (trace (OHLC_endpoint_get env return_type args))
    = [Call c_OHLC_to_format [series; PyStr return_type] []
         (OHLC_to_format (crest_utils env) series (PyStr return_type))] /\
  result (OHLC_endpoint_get env return_type args)
    = OHLC_to_format (crest_utils env) series (PyStr return_type).
Proof.
  intros Hin.
  run_handler;
    repeat (destruct Hin as [Hin|Hin];
            [try discriminate Hin; inversion Hin; subst; clear Hin|]);
    try contradiction;
    repeat match goal with H : _ = _ |- _ => rewrite H end;
    split; reflexivity.
Qed.

Lemma sample_request_except_range (regionID : Z) (range range' : PyObj) (key : string) :
  key <> "range" ->
  args_get (sample_request regionID range') key = args_get (sample_request regionID range) key.
Proof.
  intros Hkey. unfold args_get, sample_request. cbn -[String.eqb].
  repeat match goal with
         | |- context [String.eqb ?k key] => destruct (String.eqb k key) eqn:?
         end; try reflexivity.
  exfalso. apply Hkey. symmetry. now apply String.eqb_eq.
Qed.

(** C10.  Every [build_forecast] call of the forecast handler receives
    [DEFAULT_RANGE] as its horizon, and two requests that differ only in
    the [range] argument make the same collaborator calls, with the same
    arguments and outcomes, and end with the same result: the supplied
    range only shows in the log records. *)
Theorem prophet_range_has_no_influence (env : Env) (args : Namespace) :
  (forall a kw o,
     In (Call c_build_forecast a kw o) (trace (ProphetEndpoint_get env args)) ->
     exists data, a = [data; DEFAULT_RANGE env]) /\
  (forall args',
     (forall key, key <> "range" -> args_get args' key = args_get args key) ->
     calls (trace (ProphetEndpoint_get env args'))
       = calls (trace (ProphetEndpoint_get env args)) /\
     result (ProphetEndpoint_get env args') = result (ProphetEndpoint_get env args)).
Proof.
  split.
  - intros a kw o. apply Prophet_horizon_is_default.
  - intros args'. apply Prophet_same_run_without_range.
Qed.

Lemma prophet_range_has_no_influence_witness :
  calls (trace (ProphetEndpoint_get (sample_env true true true)
                  (sample_request 10000002 (PyInt 999999))))
    = calls (trace (ProphetEndpoint_get (sample_env true true true)
                      (sample_request 10000002 PyNone))) /\
  result (ProphetEndpoint_get (sample_env true true true)
            (sample_request 10000002 (PyInt 999999)))
    = result (ProphetEndpoint_get (sample_env true true true)
                (sample_request 10000002 PyNone)).
Proof.
  apply (proj2 (prophet_range_has_no_influence
                  (sample_env true true true) (sample_request 10000002 PyNone))
               (sample_request 10000002 (PyInt 999999))).
  intros key. apply sample_request_except_range.
Defined.

(** C1.  When both ids validate, the archive fetch raises, the market fetch
    returns a series and [build_forecast] returns a forecast for it, the
    forecast handler logs the archive's exception, calls
    [fetch_market_history] exactly once, on the same regionID and typeID,
    and hands the market series to [build_forecast]; but it then ends with
    [NameError] on [return_type] without formatting: no forecast is
    returned. *)
Theorem prophet_fallback_then_NameError
    (env : Env) (args : Namespace) (err : PyExn) (series forecast : PyObj) :
  (exists v, validate_id (crest_utils env) "map_regions"
               (args_get args "regionID") config_logger = Returns v) ->
  (exists v, validate_id (crest_utils env) "inventory_types"
               (args_get args "typeID") config_logger = Returns v) ->
  fetch_extended_history (forecast_utils env)
    (args_get args "regionID") (args_get args "typeID") = Raises err ->
  fetch_market_history (crest_utils env)
    (args_get args "regionID") (args_get args "typeID") [] = Returns series ->
  build_forecast (forecast_utils env) series (DEFAULT_RANGE env) = Returns forecast ->
  calls_to c_fetch_extended_history (trace (ProphetEndpoint_get env args))
    = [Call c_fetch_extended_history
         [args_get args "regionID"; args_get args "typeID"] [] (Raises err)] /\
  In (Log WARNING (Text "Unable to fetch data from archive") (Some err))
     (trace (ProphetEndpoint_get env args)) /\
  calls_to c_fetch_market_history (trace (ProphetEndpoint_get env args))
    = [Call c_fetch_market_history
         [args_get args "regionID"; args_get args "typeID"] [] (Returns series)] /\
  calls_to c_build_forecast (trace (ProphetEndpoint_get env args))
    = [Call c_build_forecast [series; DEFAULT_RANGE env] [] (Returns forecast)] /\
  calls_to c_data_to_format (trace (ProphetEndpoint_get env args)) = [] /\
  result (ProphetEndpoint_get env args) = Raises (NameError "return_type").
Proof.
  intros [v1 Hregion] [v2 Htype] Harchive Hmarket Hforecast.
  unfold_handlers. rewrite Hregion, Htype, Harchive. simpl.
  rewrite Hmarket. simpl. rewrite Hforecast. simpl.
  repeat split; try reflexivity. in_trace.
Qed.

Lemma prophet_fallback_then_NameError_witness :
  calls_to c_fetch_market_history
    (trace (ProphetEndpoint_get (sample_env false true true)
              (sample_request 10000002 PyNone)))
    = [Call c_fetch_market_history [PyInt 10000002; PyInt 34] []
         (Returns (PyRef "market_history"))] /\
  calls_to c_build_forecast
    (trace (ProphetEndpoint_get (sample_env false true true)
              (sample_request 10000002 PyNone)))
    = [Call c_build_forecast [PyRef "market_history"; PyStr "60"] []
         (Returns (PyTuple (PyRef "market_history") (PyStr "60")))] /\
  result (ProphetEndpoint_get (sample_env false true true)
            (sample_request 10000002 PyNone))
    = Raises (NameError "return_type").
Proof.
  destruct (prophet_fallback_then_NameError
              (sample_env false true true) (sample_request 10000002 PyNone)
              (OtherException "ConnectionError" "extended_history unreachable")
              (PyRef "market_history")
              (PyTuple (PyRef "market_history") (PyStr "60"))
              (ex_intro _ PyNone eq_refl) (ex_intro _ PyNone eq_refl)
              eq_refl eq_refl eq_refl)
    as [_ [_ [Hmarket [Hbuild [_ Hresult]]]]].
  split; [exact Hmarket | split; [exact Hbuild | exact Hresult]].
Defined.

(** C2.  A forecast request with valid ids and [range=999999], above the
    configured maximum 180, is not rejected: the handler fetches the
    series and calls [build_forecast] with the default horizon, and its
    result is no error tuple. *)
Theorem prophet_oversized_range_not_rejected :
  MAX_RANGE (sample_env true true true) = PyStr "180" /\
  args_get (sample_request 10000002 (PyInt 999999)) "range" = PyInt 999999 /\
  calls (trace (ProphetEndpoint_get (sample_env true true true)
                  (sample_request 10000002 (PyInt 999999))))
    = [Call c_validate_id [PyStr "map_regions"; PyInt 10000002] config_logger
         (Returns PyNone);
       Call c_validate_id [PyStr "inventory_types"; PyInt 34] config_logger
         (Returns PyNone);
       Call c_fetch_extended_history [PyInt 10000002; PyInt 34] []
         (Returns (PyRef "extended_history"));
       Call c_build_forecast [PyRef "extended_history"; PyStr "60"] []
         (Returns (PyTuple (PyRef "extended_history") (PyStr "60")))] /\
  result (ProphetEndpoint_get (sample_env true true true)
            (sample_request 10000002 (PyInt 999999)))
    = Raises (NameError "return_type") /\
  (forall body status,
     result (ProphetEndpoint_get (sample_env true true true)
               (sample_request 10000002 (PyInt 999999)))
       <> Returns (error_response body status)).
Proof.
  repeat split; try reflexivity.
  intros body status H. discriminate H.
Qed.

(** C6.  In the forecast handler an exception raised by the fallback
    [fetch_market_history] call or by [build_forecast] is not caught: it
    leaves the handler as that exception and no status-and-body tuple is
    returned. *)
Theorem prophet_errors_escape
    (env : Env) (args : Namespace)
    (f : Callee) (a : list PyObj) (kw : Kwargs) (err : PyExn) :
  In (Call f a kw (Raises err)) (trace (ProphetEndpoint_get env args)) ->
  f = c_fetch_market_history \/ f = c_build_forecast ->
  result (ProphetEndpoint_get env args) = Raises err.
Proof.
  intros Hin Hf.
  run_handler;
    repeat (destruct Hin as [Hin|Hin];
            [try discriminate Hin; inversion Hin; subst; clear Hin|]);
    try contradiction;
    try reflexivity;
    destruct Hf; discriminate.
Qed.

Lemma prophet_errors_escape_witness :
  result (ProphetEndpoint_get (sample_env false false true)
            (sample_request 10000002 PyNone))
    = Raises (OtherException "ConnectionError" "market_history unreachable") /\
  result (ProphetEndpoint_get (sample_env true true false)
            (sample_request 10000002 PyNone))
    = Raises (OtherException "ForecastError" "series too short").
Proof.
  split.
  - refine (prophet_errors_escape
              (sample_env false false true) (sample_request 10000002 PyNone)
              c_fetch_market_history [PyInt 10000002; PyInt 34] []
              (OtherException "ConnectionError" "market_history unreachable") _ _).
    + in_trace.
    + left; reflexivity.
  - refine (prophet_errors_escape
              (sample_env true true false) (sample_request 10000002 PyNone)
              c_build_forecast [PyRef "extended_history"; PyStr "60"] []
              (OtherException "ForecastError" "series too short") _ _).
    + in_trace.
    + right; reflexivity.
Defined.

(** C7.  The forecast handler never calls [data_to_format]: a request that
    passes validation, obtains a series and gets its forecast built ends
    with [NameError] on [return_type], which [get(self)] neither receives
    nor finds in the module; and called by the router with the URL's
    [return_type] as keyword, [get] fails with [TypeError] before its body
    runs. *)
Theorem prophet_never_formats (env : Env) (return_type : string) (args : Namespace) :
  calls_to c_data_to_format (trace (ProphetEndpoint_get env args)) = [] /\
  (forall a kw forecast,
     In (Call c_build_forecast a kw (Returns forecast))
        (trace (ProphetEndpoint_get env args)) ->
     result (ProphetEndpoint_get env args) = Raises (NameError "return_type")) /\
  (forall v,
     result (ProphetEndpoint_get env args) = Returns v ->
     exists ev, In ev (trace (ProphetEndpoint_get env args)) /\
                is_failed_validation ev = true) /\
  route_prophet env return_type args
    = ([], Raises (TypeError "get() got an unexpected keyword argument 'return_type'")).
Proof.
  split; [|split; [|split]].
  - apply Prophet_no_format_call.
  - intros a kw forecast. apply Prophet_NameError_after_forecast.
  - intros v Hv. apply (Prophet_returns_only_validation_errors env args v Hv).
  - reflexivity.
Qed.

Lemma prophet_never_formats_witness :
  result (ProphetEndpoint_get (sample_env true true true)
            (sample_request 10000002 PyNone))
    = Raises (NameError "return_type").
Proof.
  refine (proj1 (proj2 (prophet_never_formats
            (sample_env true true true) "json" (sample_request 10000002 PyNone)))
            [PyRef "extended_history"; PyStr "60"] []
            (PyTuple (PyRef "extended_history") (PyStr "60")) _).
  in_trace.
Defined.

(** The router's call of the OHLC handler binds [return_type] and runs the
    body. *)
Lemma route_OHLC_runs_get (env : Env) (return_type : string) (args : Namespace) :
  route_OHLC env return_type args = OHLC_endpoint_get env return_type args.
Proof.
  unfold route_OHLC, OHLC_endpoint_get.
  change (bind_keywords "get" ["self"; "return_type"] (view_args return_type))
    with (ret tt).
  now rewrite bind_ret_l.
Qed.

(** ** [collect_stats] *)

(** The body alone does nothing and returns [None]. *)
Lemma collect_stats_body_returns_None
    (endpoint_name args_payload additional_data db_name logger : PyObj) :
  def_ (collect_stats_body endpoint_name args_payload additional_data db_name logger)
  = ([], Returns PyNone).
Proof. reflexivity. Qed.

(** In a namespace that binds [DEFAULT_LOGGER] the call does nothing and
    returns [None]. *)
Lemma collect_stats_in_bound
    (globals : Namespace) (logger endpoint_name args_payload : PyObj) :
  ns_lookup globals "DEFAULT_LOGGER" = Some logger ->
  collect_stats_in globals endpoint_name args_payload = ([], Returns PyNone).
Proof.
  intros Hbound. unfold collect_stats_in, collect_stats_defaults. simpl.
  unfold load_global. rewrite Hbound. reflexivity.
Qed.

(** The name of the third default value is bound nowhere. *)
Lemma DEFAULT_LOGGER_unbound (env : Env) :
  ns_lookup (module_globals env) "DEFAULT_LOGGER" = None /\
  existsb (String.eqb "DEFAULT_LOGGER") builtins = false.
Proof. split; reflexivity. Qed.

(** C9.  [collect_stats] with the optional arguments left at their defaults
    cannot be called: the [def] statement evaluates the default
    [logger=DEFAULT_LOGGER], a name the module never binds, and raises
    [NameError], for every endpoint name and payload. *)
Theorem collect_stats_raises_NameError (endpoint_name args_payload : PyObj) :
  collect_stats endpoint_name args_payload = ([], Raises (NameError "DEFAULT_LOGGER")).
Proof. reflexivity. Qed.

(** * Further properties *)

(** ** The OHLC handler beyond its error paths *)

(** X1.  When both ids validate, the market fetch returns a series and
    [OHLC_to_format] returns a message for that series and the URL's
    [return_type], the OHLC handler makes exactly these four calls, in this
    order, logs no WARNING and returns that message unchanged. *)
Theorem OHLC_success_path
    (env : Env) (return_type : string) (args : Namespace)
    (v1 v2 series message : PyObj) :
  validate_id (crest_utils env) "map_regions"
    (args_get args "regionID") config_logger = Returns v1 ->
  validate_id (crest_utils env) "inventory_types"
    (args_get args "typeID") config_logger = Returns v2 ->
  fetch_market_history (crest_utils env)
    (args_get args "regionID") (args_get args "typeID") config_logger = Returns series ->
  OHLC_to_format (crest_utils env) series (PyStr return_type) = Returns message ->
  calls (trace (OHLC_endpoint_get env return_type args))
    = [Call c_validate_id [PyStr "map_regions"; args_get args "regionID"]
         config_logger (Returns v1);
       Call c_validate_id [PyStr "inventory_types"; args_get args "typeID"]
         config_logger (Returns v2);
       Call c_fetch_market_history [args_get args "regionID"; args_get args "typeID"]
         config_logger (Returns series);
       Call c_OHLC_to_format [series; PyStr return_type] [] (Returns message)] /\
  warnings (trace (OHLC_endpoint_get env return_type args)) = [] /\
  result (OHLC_endpoint_get env return_type args) = Returns message.
Proof.
  intros Hregion Htype Hfetch Hformat.
  unfold_handlers. rewrite Hregion, Htype, Hfetch. simpl.
  rewrite Hformat. simpl. repeat split.
Qed.

Lemma OHLC_success_path_witness :
  result (OHLC_endpoint_get (sample_env true true true) "csv"
            (sample_request 10000002 PyNone))
    = Returns (PyTuple (PyRef "market_history") (PyStr "csv")).
Proof.
  exact (proj2 (proj2 (OHLC_success_path
           (sample_env true true true) "csv" (sample_request 10000002 PyNone)
           PyNone PyNone (PyRef "market_history")
           (PyTuple (PyRef "market_history") (PyStr "csv"))
           eq_refl eq_refl eq_refl eq_refl))).
Defined.

(** X2.  An exception raised by [OHLC_to_format] (an unsupported format,
    say) is neither caught nor logged by the OHLC handler: it leaves the
    handler as that exception, after both validations and the fetch have
    been made. *)
Theorem OHLC_format_errors_escape
    (env : Env) (return_type : string) (args : Namespace)
    (a : list PyObj) (kw : Kwargs) (err : PyExn) :
  In (Call c_OHLC_to_format a kw (Raises err))
     (trace (OHLC_endpoint_get env return_type args)) ->
  result (OHLC_endpoint_get env return_type args) = Raises err /\
  warnings (trace (OHLC_endpoint_get env return_type args)) = [] /\
  List.length (calls_to c_fetch_market_history
                 (trace (OHLC_endpoint_get env return_type args))) = 1%nat /\
  exists series, a = [series; PyStr return_type].
Proof.
  intros Hin.
  run_handler;
    repeat (destruct Hin as [Hin|Hin];
            [try discriminate Hin; inversion Hin; subst; clear Hin|]);
    try contradiction;
    repeat split; eexists; reflexivity.
Qed.

Lemma OHLC_format_errors_escape_witness :
  result (OHLC_endpoint_get strict_format_env "xml" (sample_request 10000002 PyNone))
    = Raises (OtherException "UnsupportedFormat" "xml").
Proof.
  refine (proj1 (OHLC_format_errors_escape
            strict_format_env "xml" (sample_request 10000002 PyNone)
            [PyRef "market_history"; PyStr "xml"] []
            (OtherException "UnsupportedFormat" "xml") _)).
  in_trace.
Defined.

(** ** Validation in both handlers *)

(** X3.  Validation stops at the first failure, in both handlers alike: when
    the regionID is refused, that [validate_id] call is the only call of
    the request, the typeID is never looked at; when the regionID passes
    and the typeID is refused, the two [validate_id] calls are the only
    calls. *)
Theorem validation_short_circuits
    (env : Env) (return_type : string) (args : Namespace) :
  (forall err,
     validate_id (crest_utils env) "map_regions"
       (args_get args "regionID") config_logger = Raises err ->
     calls (trace (OHLC_endpoint_get env return_type args))
       = [Call c_validate_id [PyStr "map_regions"; args_get args "regionID"]
            config_logger (Raises err)] /\
     calls (trace (ProphetEndpoint_get env args))
       = [Call c_validate_id [PyStr "map_regions"; args_get args "regionID"]
            config_logger (Raises err)]) /\
  (forall v err,
     validate_id (crest_utils env) "map_regions"
       (args_get args "regionID") config_logger = Returns v ->
     validate_id (crest_utils env) "inventory_types"
       (args_get args "typeID") config_logger = Raises err ->
     calls (trace (OHLC_endpoint_get env return_type args))
       = [Call c_validate_id [PyStr "map_regions"; args_get args "regionID"]
            config_logger (Returns v);
          Call c_validate_id [PyStr "inventory_types"; args_get args "typeID"]
            config_logger (Raises err)] /\
     calls (trace (ProphetEndpoint_get env args))
       = [Call c_validate_id [PyStr "map_regions"; args_get args "regionID"]
            config_logger (Returns v);
          Call c_validate_id [PyStr "inventory_types"; args_get args "typeID"]
            config_logger (Raises err)]).
Proof.
  split.
  - intros err Hregion. unfold_handlers. rewrite Hregion. simpl.
    destruct err; split; reflexivity.
  - intros v err Hregion Htype. unfold_handlers. rewrite Hregion, Htype. simpl.
    destruct err; split; reflexivity.
Qed.

Lemma validation_short_circuits_witness :
  calls (trace (OHLC_endpoint_get (sample_env true true true) "json"
                  (sample_request 1 PyNone)))
    = [Call c_validate_id [PyStr "map_regions"; PyInt 1] config_logger
         (Raises (ValidatorException "ID not found in map_regions" 404))].
Proof.
  exact (proj1 (proj1 (validation_short_circuits
           (sample_env true true true) "json" (sample_request 1 PyNone))
           (ValidatorException "ID not found in map_regions" 404) eq_refl)).
Defined.

(** X4.  In the forecast handler an exception raised by a [validate_id] call
    ends the request with a returned tuple: the exception's own message and
    status for a [ValidatorException], the fixed 'UNHANDLED EXCEPTION', 500
    for any other exception; no data source is called. *)
Theorem Prophet_validation_errors_are_translated
    (env : Env) (args : Namespace) (a : list PyObj) (kw : Kwargs) (err : PyExn) :
  In (Call c_validate_id a kw (Raises err)) (trace (ProphetEndpoint_get env args)) ->
  result (ProphetEndpoint_get env args) = Returns (translated err) /\
  filter is_fetch (trace (ProphetEndpoint_get env args)) = [] /\
  calls_to c_build_forecast (trace (ProphetEndpoint_get env args)) = [].
Proof.
  intros Hin.
  run_handler;
    repeat (destruct Hin as [Hin|Hin];
            [try discriminate Hin; inversion Hin; subst; clear Hin|]);
    try contradiction;
    repeat split.
Qed.

Lemma Prophet_validation_errors_are_translated_witness :
  result (ProphetEndpoint_get (sample_env true true true) (sample_request 1 PyNone))
    = Returns (PyTuple (PyStr "ID not found in map_regions") (PyInt 404)).
Proof.
  refine (proj1 (Prophet_validation_errors_are_translated
            (sample_env true true true) (sample_request 1 PyNone)
            [PyStr "map_regions"; PyInt 1] config_logger
            (ValidatorException "ID not found in map_regions" 404) _)).
  in_trace.
Defined.

(** X5.  The two handlers validate alike: on an OHLC request and a forecast
    request with the same regionID and typeID they make the same
    [validate_id] calls, and when a validation fails they make the same
    calls, log the same WARNING and return the same tuple. *)
Theorem handlers_agree_on_validation
    (env : Env) (return_type : string) (args_ohlc args_prophet : Namespace) :
  args_get args_ohlc "regionID" = args_get args_prophet "regionID" ->
  args_get args_ohlc "typeID" = args_get args_prophet "typeID" ->
  calls_to c_validate_id (trace (OHLC_endpoint_get env return_type args_ohlc))
    = calls_to c_validate_id (trace (ProphetEndpoint_get env args_prophet)) /\
  ((exists ev, In ev (trace (OHLC_endpoint_get env return_type args_ohlc)) /\
               is_failed_validation ev = true) ->
   calls (trace (OHLC_endpoint_get env return_type args_ohlc))
     = calls (trace (ProphetEndpoint_get env args_prophet)) /\
   warnings (trace (OHLC_endpoint_get env return_type args_ohlc))
     = warnings (trace (ProphetEndpoint_get env args_prophet)) /\
   result (OHLC_endpoint_get env return_type args_ohlc)
     = result (ProphetEndpoint_get env args_prophet)).
Proof.
  intros Hregion Htype.
  unfold_handlers. rewrite !Hregion, !Htype. clear Hregion Htype.
  split.
  - run_handler; reflexivity.
  - intros [ev [Hin Hfail]].
    run_handler;
      repeat (destruct Hin as [Hin|Hin]; [subst ev; try discriminate Hfail|]);
      try contradiction; repeat split.
Qed.

Lemma handlers_agree_on_validation_witness :
  result (OHLC_endpoint_get (sample_env true true true) "json" (sample_OHLC_request 1))
    = result (ProphetEndpoint_get (sample_env true true true)
                (sample_request 1 (PyInt 30))) /\
  warnings (trace (OHLC_endpoint_get (sample_env true true true) "json"
                     (sample_OHLC_request 1)))
    = [Log WARNING (Text "ERROR: unable to validate type/region ids")
         (Some (ValidatorException "ID not found in map_regions" 404))].
Proof.
  destruct (proj2 (handlers_agree_on_validation
              (sample_env true true true) "json"
              (sample_OHLC_request 1) (sample_request 1 (PyInt 30))
              eq_refl eq_refl)) as [_ [_ Hresult]].
  - exists (Call c_validate_id [PyStr "map_regions"; PyInt 1] config_logger
              (Raises (ValidatorException "ID not found in map_regions" 404))).
    split; [in_trace | reflexivity].
  - split; [exact Hresult | reflexivity].
Defined.

(** ** The data sources of the forecast handler *)

(** X6.  When the archive fetch returns a series, the forecast handler
    never calls [fetch_market_history], logs no WARNING, and hands exactly
    that series to [build_forecast] with the default horizon. *)
Theorem Prophet_archive_success_skips_market
    (env : Env) (args : Namespace) (a : list PyObj) (kw : Kwargs) (series : PyObj) :
  In (Call c_fetch_extended_history a kw (Returns series))
     (trace (ProphetEndpoint_get env args)) ->
  calls_to c_fetch_market_history (trace (ProphetEndpoint_get env args)) = [] /\
  warnings (trace (ProphetEndpoint_get env args)) = [] /\
  calls_to c_build_forecast (trace (ProphetEndpoint_get env args))
    = [Call c_build_forecast [series; DEFAULT_RANGE env] []
         (build_forecast (forecast_utils env) series (DEFAULT_RANGE env))].
Proof.
  intros Hin.
  run_handler;
    repeat (destruct Hin as [Hin|Hin];
            [try discriminate Hin; inversion Hin; subst; clear Hin|]);
    try contradiction;
    repeat match goal with H : build_forecast _ _ _ = _ |- _ => rewrite H end;
    repeat split.
Qed.

Lemma Prophet_archive_success_skips_market_witness :
  calls_to c_fetch_market_history
    (trace (ProphetEndpoint_get (sample_env true false true)
              (sample_request 10000002 PyNone))) = [].
Proof.
  refine (proj1 (Prophet_archive_success_skips_market
            (sample_env true false true) (sample_request 10000002 PyNone)
            [PyInt 10000002; PyInt 34] [] (PyRef "extended_history") _)).
  in_trace.
Defined.

(** X7.  The forecast handler calls [fetch_market_history] only as the
    fallback: every such call has the archive's call on the same arguments
    before it, that call raised, and its exception was logged at WARNING;
    this holds whatever the exception is, a [ValidatorException] included.
    The fallback passes neither [config] nor [logger]. *)
Theorem Prophet_market_only_as_fallback
    (env : Env) (args : Namespace) (a : list PyObj) (kw : Kwargs) (o : Outcome) :
  In (Call c_fetch_market_history a kw o) (trace (ProphetEndpoint_get env args)) ->
  kw = [] /\
  exists err pre post,
    trace (ProphetEndpoint_get env args)
      = pre ++ Call c_fetch_extended_history a [] (Raises err)
            :: Log WARNING (Text "Unable to fetch data from archive") (Some err)
            :: Call c_fetch_market_history a kw o :: post.
Proof.
  intros Hin.
  run_handler;
    repeat (destruct Hin as [Hin|Hin];
            [try discriminate Hin; inversion Hin; subst; clear Hin|]);
    try contradiction;
    (split; [reflexivity|]);
    match goal with
    | |- exists err pre post, ?t = _ =>
        eexists; exists (firstn 4 t); eexists; simpl; reflexivity
    end.
Qed.

Lemma Prophet_market_only_as_fallback_witness :
  exists err pre post,
    trace (ProphetEndpoint_get (sample_env false true true)
             (sample_request 10000002 PyNone))
      = pre ++ Call c_fetch_extended_history [PyInt 10000002; PyInt 34] [] (Raises err)
            :: Log WARNING (Text "Unable to fetch data from archive") (Some err)
            :: Call c_fetch_market_history [PyInt 10000002; PyInt 34] []
                 (Returns (PyRef "market_history")) :: post.
Proof.
  refine (proj2 (Prophet_market_only_as_fallback
            (sample_env false true true) (sample_request 10000002 PyNone)
            [PyInt 10000002; PyInt 34] [] (Returns (PyRef "market_history")) _)).
  in_trace.
Defined.

(** ** No retries *)

(** X8.  No handler repeats a call: a request makes at most two
    [validate_id] calls and at most one call of every other collaborator,
    at most four calls in the OHLC handler and five in the forecast
    handler.  The OHLC handler never calls
    [build_forecast] or [data_to_format], the forecast handler never calls
    [OHLC_to_format]. *)
Theorem handlers_never_retry
    (env : Env) (return_type : string) (args : Namespace) (f : Callee) :
  (List.length (calls_to f (trace (OHLC_endpoint_get env return_type args)))
     <= match f with c_validate_id => 2 | _ => 1 end)%nat /\
  (List.length (calls_to f (trace (ProphetEndpoint_get env args)))
     <= match f with c_validate_id => 2 | _ => 1 end)%nat /\
  (List.length (calls (trace (OHLC_endpoint_get env return_type args))) <= 4)%nat /\
  (List.length (calls (trace (ProphetEndpoint_get env args))) <= 5)%nat /\
  calls_to c_build_forecast (trace (OHLC_endpoint_get env return_type args)) = [] /\
  calls_to c_data_to_format (trace (OHLC_endpoint_get env return_type args)) = [] /\
  calls_to c_OHLC_to_format (trace (ProphetEndpoint_get env args)) = [].
Proof.
  run_handler; destruct f; simpl; repeat split; lia.
Qed.

(** ** Logging *)

(** Finds the prefix of an explicit trace before a call and its WARNING. *)
Ltac at_some_prefix :=
  lazymatch goal with
  | |- exists pre, _ = _ => idtac
  | |- exists pre, exists _, _ => idtac
  end;
  match goal with
  | |- context [?t = _ ++ _] =>
      let try_at n := (exists (firstn n t); simpl; repeat eexists; reflexivity) in
      first [ try_at 2%nat | try_at 3%nat | try_at 4%nat | try_at 5%nat | try_at 6%nat ]
  end.

(** X9.  Every exception a handler catches is logged: in the OHLC handler a
    raising [validate_id] or [fetch_market_history] call is followed at
    once by a WARNING record that carries the exception, and that record
    ends the trace; in the forecast handler the same holds for a raising
    [validate_id] or [fetch_extended_history] call, the WARNING following
    at once.  A request logs at most one WARNING. *)
Theorem caught_exceptions_are_logged
    (env : Env) (return_type : string) (args : Namespace)
    (f : Callee) (a : list PyObj) (kw : Kwargs) (err : PyExn) :
  (In (Call f a kw (Raises err)) (trace (OHLC_endpoint_get env return_type args)) ->
   f = c_validate_id \/ f = c_fetch_market_history ->
   exists pre msg,
     trace (OHLC_endpoint_get env return_type args)
       = pre ++ [Call f a kw (Raises err); Log WARNING (Text msg) (Some err)]) /\
  (In (Call f a kw (Raises err)) (trace (ProphetEndpoint_get env args)) ->
   f = c_validate_id \/ f = c_fetch_extended_history ->
   exists pre msg post,
     trace (ProphetEndpoint_get env args)
       = pre ++ Call f a kw (Raises err) :: Log WARNING (Text msg) (Some err) :: post) /\
  (List.length (warnings (trace (OHLC_endpoint_get env return_type args))) <= 1)%nat /\
  (List.length (warnings (trace (ProphetEndpoint_get env args))) <= 1)%nat.
Proof.
  split; [|split; [|split]].
  - intros Hin Hf.
    run_handler;
      repeat (destruct Hin as [Hin|Hin];
              [try discriminate Hin; inversion Hin; subst; clear Hin|]);
      try contradiction;
      try (destruct Hf; discriminate);
      at_some_prefix.
  - intros Hin Hf.
    run_handler;
      repeat (destruct Hin as [Hin|Hin];
              [try discriminate Hin; inversion Hin; subst; clear Hin|]);
      try contradiction;
      try (destruct Hf; discriminate);
      at_some_prefix.
  - run_handler; simpl; lia.
  - run_handler; simpl; lia.
Qed.

Lemma caught_exceptions_are_logged_witness :
  exists pre msg,
    trace (OHLC_endpoint_get (sample_env true false true) "json"
             (sample_request 10000002 PyNone))
      = pre ++ [Call c_fetch_market_history [PyInt 10000002; PyInt 34] config_logger
                  (Raises (OtherException "ConnectionError" "market_history unreachable"));
                Log WARNING (Text msg)
                  (Some (OtherException "ConnectionError" "market_history unreachable"))].
Proof.
  refine (proj1 (caught_exceptions_are_logged
            (sample_env true false true) "json" (sample_request 10000002 PyNone)
            c_fetch_market_history [PyInt 10000002; PyInt 34] config_logger
            (OtherException "ConnectionError" "market_history unreachable")) _ _).
  - in_trace.
  - right; reflexivity.
Defined.

(** ** What a response depends on *)

(** X10.  Both handlers read nothing of the parsed arguments but regionID
    and typeID: two requests that agree on these two make the same
    collaborator calls and get the same result, whatever their tracking
    token, User-Agent or range. *)
Theorem responses_depend_on_ids_only
    (env : Env) (return_type : string) (args args' : Namespace) :
  args_get args' "regionID" = args_get args "regionID" ->
  args_get args' "typeID" = args_get args "typeID" ->
  (calls (trace (OHLC_endpoint_get env return_type args'))
     = calls (trace (OHLC_endpoint_get env return_type args)) /\
   result (OHLC_endpoint_get env return_type args')
     = result (OHLC_endpoint_get env return_type args)) /\
  (calls (trace (ProphetEndpoint_get env args'))
     = calls (trace (ProphetEndpoint_get env args)) /\
   result (ProphetEndpoint_get env args') = result (ProphetEndpoint_get env args)).
Proof.
  intros Hregion Htype.
  unfold_handlers. rewrite !Hregion, !Htype. clear Hregion Htype.
  run_handler; repeat split.
Qed.

Lemma responses_depend_on_ids_only_witness :
  result (OHLC_endpoint_get (sample_env true true true) "json"
            (("api", PyStr "another-token") :: sample_request 10000002 PyNone))
    = result (OHLC_endpoint_get (sample_env true true true) "json"
                (sample_request 10000002 PyNone)).
Proof.
  exact (proj2 (proj1 (responses_depend_on_ids_only
           (sample_env true true true) "json"
           (sample_request 10000002 PyNone)
           (("api", PyStr "another-token") :: sample_request 10000002 PyNone)
           eq_refl eq_refl))).
Defined.

(** X11.  In the OHLC handler [return_type] reaches nothing but the
    [OHLC_to_format] call: the validations, the fetch and the log records
    are the same for every format, so an unsupported format is found out
    only after the fetch; and a request that fails in validation or in the
    fetch runs and ends the same for every format. *)
Theorem return_type_only_reaches_formatter
    (env : Env) (return_type return_type' : string) (args : Namespace) :
  before_format (trace (OHLC_endpoint_get env return_type args))
    = before_format (trace (OHLC_endpoint_get env return_type' args)) /\
  ((exists f a kw err,
      In (Call f a kw (Raises err)) (trace (OHLC_endpoint_get env return_type args)) /\
      f <> c_OHLC_to_format) ->
   OHLC_endpoint_get env return_type args = OHLC_endpoint_get env return_type' args).
Proof.
  split.
  - run_handler; reflexivity.
  - intros (f & a & kw & err & Hin & Hf).
    run_handler;
      repeat (destruct Hin as [Hin|Hin];
              [try discriminate Hin; inversion Hin; subst; clear Hin|]);
      try contradiction;
      try reflexivity;
      exfalso; apply Hf; reflexivity.
Qed.

Lemma return_type_only_reaches_formatter_witness :
  OHLC_endpoint_get strict_format_env "xml" (sample_request 1 PyNone)
    = OHLC_endpoint_get strict_format_env "json" (sample_request 1 PyNone).
Proof.
  refine (proj2 (return_type_only_reaches_formatter
            strict_format_env "xml" "json" (sample_request 1 PyNone)) _).
  exists c_validate_id, [PyStr "map_regions"; PyInt 1], config_logger,
    (ValidatorException "ID not found in map_regions" 404).
  split; [in_trace | discriminate].
Defined.

(** ** [output_csv] *)

(** X12.  [output_csv] cannot produce a response: whatever the data, the
    status, the headers and the Flask application, it raises [NameError]
    on [APP], a name the module never binds, before it asks the
    application for anything. *)
Theorem output_csv_raises_NameError
    (env : Env) (flask : flask_app) (data status headers : PyObj) :
  output_csv env flask data status headers = ([], Raises (NameError "APP")) /\
  ns_lookup (module_globals env) "APP" = None /\
  ns_lookup (module_globals env) "API" = Some (PyRef "API").
Proof. repeat split. Qed.

(** ** [return_supported_types] on any class dictionary *)

Lemma ascii_lower_underscore (c : ascii) :
  Ascii.eqb (ascii_lower c) "_"%char = Ascii.eqb c "_"%char.
Proof.
  destruct c as [b0 b1 b2 b3 b4 b5 b6 b7].
  destruct b0, b1, b2, b3, b4, b5, b6, b7; reflexivity.
Qed.

Lemma ascii_lower_not_upper (c : ascii) : is_ascii_upper (ascii_lower c) = false.
Proof.
  destruct c as [b0 b1 b2 b3 b4 b5 b6 b7].
  destruct b0, b1, b2, b3, b4, b5, b6, b7; reflexivity.
Qed.

Lemma contains_underscore_lower (s : string) :
  contains "_"%char (lower s) = contains "_"%char s.
Proof.
  induction s as [|c s IH]; simpl; [reflexivity|].
  now rewrite ascii_lower_underscore, IH.
Qed.

Lemma has_upper_lower (s : string) : has_upper (lower s) = false.
Proof.
  induction s as [|c s IH]; simpl; [reflexivity|].
  now rewrite ascii_lower_not_upper, IH.
Qed.

Lemma ascii_lower_ascii (c : ascii) :
  Nat.ltb (nat_of_ascii c) 128 = true -> Nat.ltb (nat_of_ascii (ascii_lower c)) 128 = true.
Proof.
  destruct c as [b0 b1 b2 b3 b4 b5 b6 b7].
  destruct b0, b1, b2, b3, b4, b5, b6, b7; intros H; try reflexivity; discriminate H.
Qed.

Lemma is_ascii_lower (s : string) : is_ascii s = true -> is_ascii (lower s) = true.
Proof.
  induction s as [|c s IH]; simpl; [reflexivity|].
  intros H. apply andb_true_iff in H as [Hc Hs].
  apply andb_true_iff. split; [now apply ascii_lower_ascii | now apply IH].
Qed.

(** X13.  On a class dictionary whose keys are ASCII, every name
    [return_supported_types] returns is the lowercased form of a key
    without underscore, and itself holds neither an underscore nor a
    capital; there are as many names as keys without underscore; and when
    every key holds an underscore (a class dictionary that does not list
    the members, or member names that all hold one) the result is empty. *)
Theorem return_supported_types_normalised (dict_keys : list string) :
  (forall key, In key dict_keys -> is_ascii key = true) ->
  (forall s,
     In s (return_supported_types dict_keys) ->
     is_ascii s = true /\ contains "_"%char s = false /\ has_upper s = false /\
     exists key, In key dict_keys /\ contains "_"%char key = false /\ s = lower key) /\
  List.length (return_supported_types dict_keys)
    = List.length (filter (fun key => negb (contains "_"%char key)) dict_keys) /\
  ((forall key, In key dict_keys -> contains "_"%char key = true) ->
   return_supported_types dict_keys = []).
Proof.
  intros Hascii.
  unfold return_supported_types. rewrite return_supported_types_filter. simpl.
  split; [|split].
  - intros s Hs. apply in_map_iff in Hs as [key [<- Hkey]].
    apply filter_In in Hkey as [Hkey Hclean].
    apply negb_true_iff in Hclean.
    split; [apply is_ascii_lower, Hascii, Hkey|].
    split; [now rewrite contains_underscore_lower|].
    split; [apply has_upper_lower|].
    exists key. auto.
  - now rewrite length_map.
  - intros Hall. clear Hascii.
    induction dict_keys as [|key keys IH]; simpl; [reflexivity|].
    rewrite (Hall key (or_introl eq_refl)). simpl.
    apply IH. intros k Hk. apply Hall. now right.
Qed.

Lemma return_supported_types_normalised_witness :
  return_supported_types
    ["__module__"; "__doc__"; "_member_names_"; "_member_map_";
     "_member_type_"; "_value2member_map_"; "__new__"] = [].
Proof.
  refine (proj2 (proj2 (return_supported_types_normalised
            ["__module__"; "__doc__"; "_member_names_"; "_member_map_";
             "_member_type_"; "_value2member_map_"; "__new__"] _)) _);
    intros key Hkey; simpl in Hkey;
    repeat (destruct Hkey as [Hkey|Hkey]; [subst key; reflexivity|]);
    destruct Hkey.
Defined.
